(** * rnskiaJSI.h: the generated TurboModule adapter for RNSkiaModule

    A shallow embedding of [src/ios/build/generated/ios/rnskiaJSI.h]:

    - [Decl]: the three class declarations of the header, as data;
    - [Host]: the part of the host framework the header talks to
      (jsi, TurboModule, bridging), kept abstract;
    - [Prog]: method bodies as finite trees of host calls, run against a
      host handler with an explicit world and a trace; [Body]: the same
      bodies with their reads of and assignments to the receiver;
    - the template [NativeSkiaModuleCxxSpec<T>], its constructor, the inner
      [Delegate], the three methods and the implicit copy;
    - a store of adapter objects indexed by address, for the self-pointer;
    - what a program instantiates of the template, and whether it builds. *)

From Stdlib Require Import String List NArith.
From stdpp Require Import base option gmap strings.
Import ListNotations.
Local Open Scope string_scope.

(** ** Declarations *)

Module Decl.

(** The C++ types that occur in the signatures of the header. *)
Inductive CType : Type :=
| TBool                 (* bool *)
| TRuntimeRef           (* jsi::Runtime & *)
| TPropNameIDConstRef   (* const jsi::PropNameID & *)
| TValue                (* jsi::Value *)
| TPropNameIDVector     (* std::vector<jsi::PropNameID> *)
| TCallInvokerPtr       (* std::shared_ptr<CallInvoker> *)
| TStringView           (* std::string_view *)
| TPtr (cls : string)   (* cls * *)
| TClass (cls : string) (* cls, by value *)
| TOther (spelling : string).

Inductive Access : Type := Public | Protected | Private.

Inductive Virtuality : Type :=
| NonVirtual
| Virtual        (* virtual ...; *)
| PureVirtual    (* virtual ... = 0; *)
| Override.      (* ... override *)

Record MethodSig : Type := mkSig {
  sig_params : list CType;
  sig_ret : CType
}.

Inductive Member : Type :=
| Ctor (params : list CType)
| Method (name : string) (virt : Virtuality) (sig : MethodSig)
| StaticConstexpr (name : string) (ty : CType)
| Field (name : string) (ty : CType)
| Friend (cls : string)
| NestedClass (name : string).

Record ClassDecl : Type := mkClass {
  cls_name : string;
  cls_bases : list string;
  cls_members : list (Access * Member)
}.

(** Lines 18-25. *)
Definition NativeSkiaModuleCxxSpecJSI_decl : ClassDecl :=
  {| cls_name := "NativeSkiaModuleCxxSpecJSI";
     cls_bases := ["TurboModule"];
     cls_members :=
       [ (Protected, Ctor [TCallInvokerPtr]);
         (Public, Method "install" PureVirtual (mkSig [TRuntimeRef] TBool)) ] |}.

(** Lines 27-69, the members of the template for a type parameter
    called [T]. *)
Definition NativeSkiaModuleCxxSpec_decl (T : string) : ClassDecl :=
  {| cls_name := "NativeSkiaModuleCxxSpec";
     cls_bases := ["TurboModule"];
     cls_members :=
       [ (Public, Method "create" Override
                    (mkSig [TRuntimeRef; TPropNameIDConstRef] TValue));
         (Public, Method "getPropertyNames" Override
                    (mkSig [TRuntimeRef] TPropNameIDVector));
         (Public, StaticConstexpr "kModuleName" TStringView);
         (Protected, Ctor [TCallInvokerPtr]);
         (Private, NestedClass "Delegate");
         (Private, Field "delegate_" (TClass "Delegate")) ] |}.

(** Lines 47-66. *)
Definition Delegate_decl (T : string) : ClassDecl :=
  {| cls_name := "Delegate";
     cls_bases := ["NativeSkiaModuleCxxSpecJSI"];
     cls_members :=
       [ (Public, Ctor [TPtr T; TCallInvokerPtr]);
         (Public, Method "install" Override (mkSig [TRuntimeRef] TBool));
         (Private, Friend "NativeSkiaModuleCxxSpec");
         (Private, Field "instance_" (TPtr T)) ] |}.

Definition is_public (a : Access) : bool :=
  match a with Public => true | _ => false end.

Definition is_virtual (v : Virtuality) : bool :=
  match v with NonVirtual => false | _ => true end.

(** The methods of a class, with their access. *)
Definition methods (c : ClassDecl) : list (Access * (string * Virtuality * MethodSig)) :=
  flat_map
    (fun am => match snd am with
               | Method n v s => [(fst am, (n, v, s))]
               | _ => []
               end)
    (cls_members c).

Definition public_methods (c : ClassDecl) : list (string * Virtuality * MethodSig) :=
  map snd (List.filter (fun am => is_public (fst am)) (methods c)).

Definition public_virtual_methods (c : ClassDecl) : list (string * Virtuality * MethodSig) :=
  List.filter (fun m => is_virtual (snd (fst m))) (public_methods c).

Definition method_names (ms : list (string * Virtuality * MethodSig)) : list string :=
  map (fun m => fst (fst m)) ms.

(** An implementation type, as far as the template looks at it: its name
    and the signature of its member function [install].  The template
    names [&T::install], so [T] is taken to declare exactly one such
    member. *)
Record ImplType : Type := mkImpl {
  impl_name : string;
  impl_install : MethodSig
}.

(** A pointer to member function, [&cls::member]. *)
Inductive MemberFn : Type :=
| AddrOf (cls : ImplType) (member : string).

Definition pointee_sig (f : MemberFn) : MethodSig :=
  match f with AddrOf cls _ => impl_install cls end.

End Decl.
Import Decl.

(** ** Compile time *)

(** Modelled from the spec: [bridging::getParameterCount] comes from the
    host's <react/bridging/Bridging.h>, which is not among the sources.  The
    spec describes the assertion built on it as verifying that "the wrapped
    method accepts exactly one parameter": the number of parameters the
    member function declares. *)
Definition getParameterCount (f : MemberFn) : nat :=
  length (sig_params (pointee_sig f)).

Inductive Diagnostic : Type :=
| StaticAssertFailed (msg : string)
| BridgingError (msg : string).

Inductive Build (A : Type) : Type :=
| Built (a : A)
| BuildFailed (ds : list Diagnostic).
Arguments Built {A} a.
Arguments BuildFailed {A} ds.

Definition static_assert (cond : bool) (msg : string) : list Diagnostic :=
  if cond then [] else [StaticAssertFailed msg].

(** ** The host framework *)

(** Addresses of objects. *)
Abbreviation Addr := N (only parsing).

(** What the header uses from <ReactCommon/TurboModule.h>, jsi and
    <react/bridging/Bridging.h>.  None of it belongs to the repository; the
    types are opaque, and the base-class constructor and the protected
    member [jsInvoker_] are the only operations the header itself performs
    on a TurboModule subobject. *)
Class Host : Type := {
  Runtime : Type;         (* jsi::Runtime *)
  CallInvoker : Type;     (* std::shared_ptr<CallInvoker> *)
  PropNameID : Type;      (* jsi::PropNameID *)
  Value : Type;           (* jsi::Value *)
  JSError : Type;         (* what a host call may throw *)
  World : Type;           (* everything the host and T own *)
  TurboModule : Type;     (* a TurboModule base subobject *)
  TurboModule_ctor : string -> CallInvoker -> TurboModule;
  jsInvoker_ : TurboModule -> CallInvoker;
  (* what the code run by a bridging call on the object at an address has
     left in the protected members of that object's TurboModule base, as
     the world after the call tells *)
  protected_base_after : World -> Addr -> TurboModule -> TurboModule
}.

Section WithHost.

Context `{H : Host}.

(** The calls that leave the header. *)
Inductive HostE : Type -> Type :=
| CallFromJs (rt : Runtime) (method : MemberFn)
             (jsInvoker : CallInvoker) (instance : Addr) : HostE bool
    (* bridging::callFromJs<bool>(rt, method, jsInvoker, instance) *)
| TurboModule_create (self : TurboModule) (rt : Runtime)
                     (propName : PropNameID) : HostE Value
    (* self.TurboModule::create(rt, propName) *)
| TurboModule_getPropertyNames (self : TurboModule)
                               (rt : Runtime) : HostE (list PropNameID).
    (* self.TurboModule::getPropertyNames(rt) *)

Inductive AnyHostE : Type :=
| Called {X : Type} (e : HostE X).

(** A host call returns or throws. *)
Inductive Outcome (X : Type) : Type :=
| Returned (x : X)
| Raised (err : JSError).
Global Arguments Returned {X} x.
Global Arguments Raised {X} err.

Definition raises {X : Type} (o : Outcome X) : Prop :=
  exists err, o = Raised err.

Definition Handler : Type :=
  forall X : Type, HostE X -> World -> Outcome X * World.

(** *** Method bodies *)

(** A method body of the header: it returns, or calls the host and goes on
    with the result.  The header has no [throw], no [try] and no loop. *)
Inductive Prog (R : Type) : Type :=
| Ret (r : R)
| Vis {X : Type} (e : HostE X) (k : X -> Prog R).
Global Arguments Ret {R} r.
Global Arguments Vis {R X} e k.

Definition call {X : Type} (e : HostE X) : Prog X := Vis e Ret.

(** The result of running a body: how it ended, the world it left, and the
    host calls it made, in order. *)
Record Run (R : Type) : Type := mkRun {
  outcome : Outcome R;
  world : World;
  trace : list AnyHostE
}.
Global Arguments mkRun {R} _ _ _.
Global Arguments outcome {R} _.
Global Arguments world {R} _.
Global Arguments trace {R} _.

(** Running a body against the host: an exception of a host call unwinds
    through the body, which has no handler for it. *)
Fixpoint run (host : Handler) {R : Type} (p : Prog R) (w : World) : Run R :=
  match p with
  | Ret r => mkRun (Returned r) w []
  | Vis e k =>
      match host _ e w with
      | (Returned x, w') =>
          let r := run host (k x) w' in
          mkRun (outcome r) (world r) (Called e :: trace r)
      | (Raised err, w') => mkRun (Raised err) w' [Called e]
      end
  end.

(** *** Bodies with their receiver *)

(** The same bodies with the accesses to the receiver [*this] spelled out:
    a body reads members, may assign to members, and calls the host. *)
Inductive Body (S R : Type) : Type :=
| Done (r : R)
| Member {A : Type} (get : S -> A) (k : A -> Body S R)
| Assign (set : S -> S) (k : Body S R)
| HostCall {X : Type} (e : HostE X) (k : X -> Body S R).
Global Arguments Done {S R} r.
Global Arguments Member {S R A} get k.
Global Arguments Assign {S R} set k.
Global Arguments HostCall {S R X} e k.

(** Running a body on a receiver: the run, and the receiver it leaves.
    What was assigned before an exception stays assigned. *)
Fixpoint run_body (host : Handler) {S R : Type} (b : Body S R) (self : S) (w : World)
  : Run R * S :=
  match b with
  | Done r => (mkRun (Returned r) w [], self)
  | Member get k => run_body host (k (get self)) self w
  | Assign set k => run_body host k (set self) w
  | HostCall e k =>
      match host _ e w with
      | (Returned x, w') =>
          let '(r, self') := run_body host (k x) self w' in
          (mkRun (outcome r) (world r) (Called e :: trace r), self')
      | (Raised err, w') => (mkRun (Raised err) w' [Called e], self)
      end
  end.

(** The host calls of a body on a given receiver, the receiver left out. *)
Fixpoint forget {S R : Type} (b : Body S R) (self : S) : Prog R :=
  match b with
  | Done r => Ret r
  | Member get k => forget (k (get self)) self
  | Assign set k => forget k (set self)
  | HostCall e k => Vis e (fun x => forget (k x) self)
  end.

(** A body without an assignment to a member. *)
Fixpoint no_assign {S R : Type} (b : Body S R) : Prop :=
  match b with
  | Done _ => True
  | Member _ k => forall a, no_assign (k a)
  | Assign _ _ => False
  | HostCall _ k => forall x, no_assign (k x)
  end.

(** ** The template [NativeSkiaModuleCxxSpec<T>] *)

(** Line 38. *)
Definition kModuleName : string := "RNSkiaModule".

(** [reinterpret_cast<T*>(p)]: the same address at another static type. *)
Definition reinterpret_cast (p : Addr) : Addr := p.

(** The objects: [Delegate] is a [NativeSkiaModuleCxxSpecJSI] (itself a
    TurboModule) with the one member [instance_] (line 65); the adapter is a
    TurboModule with the one member [delegate_] (line 68). *)
Record Delegate : Type := mkDelegate {
  jsi_base : TurboModule;
  instance_ : Addr
}.

Record NativeSkiaModuleCxxSpec : Type := mkAdapter {
  base : TurboModule;
  delegate_ : Delegate
}.

Section Template.

(** The template parameter. *)
Variable T : ImplType.

(** The constructor declared at line 20.  Its definition is in the
    generated .cpp, which is not among the sources: a parameter. *)
Variable NativeSkiaModuleCxxSpecJSI_ctor : CallInvoker -> TurboModule.

(** Lines 49-52. *)
Definition Delegate_ctor (instance : Addr) (jsInvoker : CallInvoker) : Delegate :=
  {| jsi_base := NativeSkiaModuleCxxSpecJSI_ctor jsInvoker;
     instance_ := instance |}.

(** Lines 59-60, the body of [Delegate::install] once it has compiled. *)
Definition Delegate_install (self : Delegate) (rt : Runtime) : Prog bool :=
  call (CallFromJs rt (AddrOf T "install") (jsInvoker_ (jsi_base self)) (instance_ self)).

(** [Delegate] overrides neither [create] nor [getPropertyNames], and
    [NativeSkiaModuleCxxSpecJSI] declares neither (lines 18-25): on a
    delegate they are the host's [TurboModule::create] and
    [TurboModule::getPropertyNames]. *)
Definition Delegate_create (self : Delegate) (rt : Runtime) (propName : PropNameID)
  : Prog Value :=
  call (TurboModule_create (jsi_base self) rt propName).

Definition Delegate_getPropertyNames (self : Delegate) (runtime : Runtime)
  : Prog (list PropNameID) :=
  call (TurboModule_getPropertyNames (jsi_base self) runtime).

(** Lines 41-43; [this] is the address the adapter is constructed at. *)
Definition NativeSkiaModuleCxxSpec_ctor (this : Addr) (jsInvoker : CallInvoker)
  : NativeSkiaModuleCxxSpec :=
  {| base := TurboModule_ctor kModuleName jsInvoker;
     delegate_ := Delegate_ctor (reinterpret_cast this) jsInvoker |}.

(** Lines 30-32. *)
Definition create (self : NativeSkiaModuleCxxSpec) (rt : Runtime) (propName : PropNameID)
  : Prog Value :=
  Delegate_create (delegate_ self) rt propName.

(** Lines 34-36. *)
Definition getPropertyNames (self : NativeSkiaModuleCxxSpec) (runtime : Runtime)
  : Prog (list PropNameID) :=
  Delegate_getPropertyNames (delegate_ self) runtime.

(** *** Instantiating [Delegate::install] for [T] *)

(** What the host's [bridging::callFromJs] template itself rejects at
    compile time for a given member function: a parameter. *)
Variable bridging_diagnostics : MemberFn -> list Diagnostic.

(** Lines 55-60: the diagnostics of the body, the assertion first. *)
Definition Delegate_install_diagnostics : list Diagnostic :=
  static_assert (getParameterCount (AddrOf T "install") =? 1)%nat
                "Expected install(...) to have 1 parameters"
  ++ bridging_diagnostics (AddrOf T "install").

(** The method exists, and can be called, only when its body compiled. *)
Definition instantiate_Delegate_install : Build (Delegate -> Runtime -> Prog bool) :=
  match Delegate_install_diagnostics with
  | [] => Built Delegate_install
  | ds => BuildFailed ds
  end.

(** *** The bodies on their receivers *)

(** Lines 59-60: [jsInvoker_] and [instance_] are read from the delegate. *)
Definition Delegate_install_body (rt : Runtime) : Body Delegate bool :=
  Member (fun self => jsInvoker_ (jsi_base self)) (fun jsInvoker =>
  Member instance_ (fun instance =>
  HostCall (CallFromJs rt (AddrOf T "install") jsInvoker instance) Done)).

(** Line 31: [delegate_] is read from the adapter. *)
Definition create_body (rt : Runtime) (propName : PropNameID)
  : Body NativeSkiaModuleCxxSpec Value :=
  Member delegate_ (fun d =>
  HostCall (TurboModule_create (jsi_base d) rt propName) Done).

(** Line 35. *)
Definition getPropertyNames_body (runtime : Runtime)
  : Body NativeSkiaModuleCxxSpec (list PropNameID) :=
  Member delegate_ (fun d =>
  HostCall (TurboModule_getPropertyNames (jsi_base d) runtime) Done).

(** The header declares no copy or move constructor and deletes none
    (lines 27-69): the implicit ones copy member by member, [instance_]
    included. *)
Definition Delegate_copy (other : Delegate) : Delegate :=
  {| jsi_base := jsi_base other;
     instance_ := instance_ other |}.

Definition NativeSkiaModuleCxxSpec_copy (other : NativeSkiaModuleCxxSpec)
  : NativeSkiaModuleCxxSpec :=
  {| base := base other;
     delegate_ := Delegate_copy (delegate_ other) |}.

(** *** Adapter objects in memory *)

Record State : Type := mkState {
  objects : gmap Addr NativeSkiaModuleCxxSpec;
  host_world : World
}.

(** What can happen to adapters: one is constructed at an address by the
    declared constructor, one is made at an address as a copy of another,
    or one of the three methods is called on the adapter at an address
    ([install] on its inner delegate). *)
Inductive Op : Type :=
| OpNew (this : Addr) (jsInvoker : CallInvoker)
| OpCopy (this : Addr) (other : Addr)
| OpCreate (this : Addr) (rt : Runtime) (propName : PropNameID)
| OpGetPropertyNames (this : Addr) (runtime : Runtime)
| OpInstall (this : Addr) (rt : Runtime).

Variable host : Handler.

(** The adapter with its TurboModule base replaced. *)
Definition with_base (f : TurboModule -> TurboModule) (a : NativeSkiaModuleCxxSpec)
  : NativeSkiaModuleCxxSpec :=
  {| base := f (base a); delegate_ := delegate_ a |}.

(** One operation.  A method runs its body on its receiver and the
    receiver the body leaves is stored back.  The bridging call of
    [install] runs [T::install] on the object [instance_] points to, and
    [T], derived from the adapter, reaches the protected members of that
    object's TurboModule base: that base becomes what
    [protected_base_after] reads off the world after the call.  [delegate_]
    and [instance_] are private (lines 46, 63) and out of its reach. *)
Definition step (op : Op) (s : State) : State :=
  match op with
  | OpNew this jsInvoker =>
      mkState (<[this := NativeSkiaModuleCxxSpec_ctor this jsInvoker]> (objects s))
              (host_world s)
  | OpCopy this other =>
      match objects s !! other with
      | Some a => mkState (<[this := NativeSkiaModuleCxxSpec_copy a]> (objects s))
                          (host_world s)
      | None => s
      end
  | OpCreate this rt propName =>
      match objects s !! this with
      | Some a =>
          let '(r, a') := run_body host (create_body rt propName) a (host_world s) in
          mkState (<[this := a']> (objects s)) (world r)
      | None => s
      end
  | OpGetPropertyNames this runtime =>
      match objects s !! this with
      | Some a =>
          let '(r, a') := run_body host (getPropertyNames_body runtime) a (host_world s) in
          mkState (<[this := a']> (objects s)) (world r)
      | None => s
      end
  | OpInstall this rt =>
      match objects s !! this with
      | Some a =>
          let '(r, d') := run_body host (Delegate_install_body rt) (delegate_ a)
                                   (host_world s) in
          let target := instance_ (delegate_ a) in
          mkState (alter (with_base (protected_base_after (world r) target)) target
                         (<[this := {| base := base a; delegate_ := d' |}]> (objects s)))
                  (world r)
      | None => s
      end
  end.

(** What a program that built does, operation after operation. *)
Definition exec (ops : list Op) (s : State) : State :=
  fold_left (fun s op => step op s) ops s.


(** *** Building a program *)

(** What a translation unit can instantiate of the template.  The class
    itself brings the declarations of its members; the body of a member
    function is instantiated apart, when the function is needed. *)
Inductive Entity : Type :=
| TheClass                  (* lines 27-69, declarations *)
| Body_create               (* lines 30-32 *)
| Body_getPropertyNames     (* lines 34-36 *)
| Body_ctor                 (* lines 41-43 *)
| Body_Delegate_ctor        (* lines 49-52 *)
| Body_Delegate_install     (* lines 54-61 *)
| Body_implicit_copy.       (* the implicit copy and move constructors *)

(** The header has one [static_assert], inside the body of
    [Delegate::install]; nothing else in it looks into [T]. *)
Definition entity_diagnostics (e : Entity) : list Diagnostic :=
  match e with
  | Body_Delegate_install => Delegate_install_diagnostics
  | _ => []
  end.

Definition build (tu : list Entity) : Build (list Entity) :=
  match flat_map entity_diagnostics tu with
  | [] => Built tu
  | ds => BuildFailed ds
  end.

(** Whether the virtual [Delegate::install] is instantiated along with a
    constructor that sets up the delegate's vtable is left to the
    implementation: a parameter. *)
Variable vtable_instantiates_install : bool.

Definition with_vtable (es : list Entity) : list Entity :=
  if vtable_instantiates_install then es ++ [Body_Delegate_install] else es.

(** The bodies an operation executes, which the program must have
    instantiated. *)
Definition needs (op : Op) : list Entity :=
  match op with
  | OpNew _ _ => with_vtable [Body_ctor; Body_Delegate_ctor]
  | OpCopy _ _ => with_vtable [Body_implicit_copy]
  | OpCreate _ _ _ => [Body_create]
  | OpGetPropertyNames _ _ => [Body_getPropertyNames]
  | OpInstall _ _ => [Body_Delegate_install]
  end.

Definition instantiated_by (ops : list Op) : list Entity :=
  TheClass :: flat_map needs ops.

(** A program runs only if it built. *)
Definition run_program (ops : list Op) (s : State) : Build State :=
  match build (instantiated_by ops) with
  | Built _ => Built (exec ops s)
  | BuildFailed ds => BuildFailed ds
  end.

End Template.

End WithHost.

(** ** Histories *)

Section History.

Context `{H : Host}.





End History.

(** ** A small host to evaluate on *)

Module Sample.

Definition host : Host :=
  {| Runtime := N;
     CallInvoker := N;
     PropNameID := string;
     Value := N;
     JSError := string;
     World := list string;
     TurboModule := string * N;
     TurboModule_ctor := fun name jsInvoker => (name, jsInvoker);
     jsInvoker_ := snd;
     protected_base_after := fun w _ tm => (fst tm, N.of_nat (length w)) |}.

(** The generated .cpp passes its invoker on to the TurboModule base. *)
Definition jsi_ctor : @CallInvoker host -> @TurboModule host :=
  fun jsInvoker => ("RNSkiaModule", jsInvoker).

(** A host whose bridging call answers [true] and logs the call. *)
Definition answers_true : @Handler host :=
  fun X e w =>
    match e in @HostE _ X return @Outcome host X * list string with
    | CallFromJs _ _ _ _ => (Returned true, "callFromJs" :: w)
    | TurboModule_create _ _ _ => (Returned 0%N, w)
    | TurboModule_getPropertyNames _ _ => (Returned ["install"], w)
    end.


Definition no_bridging_diagnostics : MemberFn -> list Diagnostic := fun _ => [].

(** [bool install(jsi::Runtime &rt)] *)
Definition GoodImpl : ImplType :=
  mkImpl "RNSkiaModule" (mkSig [TRuntimeRef] TBool).

(** [bool install(jsi::Runtime &rt, bool flag)] *)
Definition TwoParamImpl : ImplType :=
  mkImpl "TwoParamModule" (mkSig [TRuntimeRef; TBool] TBool).

End Sample.

(** * Properties *)

(** ** Running a body *)

Section RunFacts.

Context `{H : Host}.
Variable host : Handler.

Lemma run_call {X : Type} (e : HostE X) (w : World) :
  (outcome (run host (call e) w), world (run host (call e) w)) = host X e w
  /\ trace (run host (call e) w) = [Called e].
Proof.
  unfold call; simpl.
  destruct (host X e w) as [[x | err] w']; simpl; split; reflexivity.
Qed.

(** Whatever a body of the header ends with, an exception is one a host
    call threw: [Prog] has no node that raises by itself. *)
Lemma run_raised_by_host {R : Type} (p : Prog R) :
  forall (w : World) (err : JSError),
    outcome (run host p w) = Raised err ->
    exists (X : Type) (e : HostE X) (w0 : World),
      In (Called e) (trace (run host p w)) /\
      fst (host X e w0) = Raised err.
Proof.
  induction p as [r | X e k IH]; intros w err Hout; simpl in *.
  - discriminate.
  - destruct (host X e w) as [[x | err'] w'] eqn:Hh; simpl in *.
    + destruct (IH x w' err Hout) as (X' & e' & w0 & Hin & Hr).
      exists X', e', w0. split; [right; exact Hin | exact Hr].
    + injection Hout as ->.
      exists X, e, w. split; [left; reflexivity | rewrite Hh; reflexivity].
Qed.

End RunFacts.

(** ** Bodies on their receiver *)

Section BodyFacts.

Context `{H : Host}.
Variable host : Handler.

(** The run of a body is the run of its host calls. *)
Lemma run_body_forget {S R : Type} (b : Body S R) :
  forall (self : S) (w : World),
    fst (run_body host b self w) = run host (forget b self) w.
Proof.
  induction b as [r | A get k IH | set k IH | X e k IH]; intros self w; simpl.
  - reflexivity.
  - apply IH.
  - apply IH.
  - destruct (host X e w) as [[x | err] w']; [| reflexivity].
    specialize (IH x self w').
    destruct (run_body host (k x) self w') as [r self']. simpl in *.
    rewrite IH. reflexivity.
Qed.

(** A body without assignment leaves its receiver as it found it, however
    its host calls end. *)
Lemma no_assign_receiver {S R : Type} (b : Body S R) :
  no_assign b ->
  forall (self : S) (w : World), snd (run_body host b self w) = self.
Proof.
  induction b as [r | A get k IH | set k IH | X e k IH]; simpl; intros Hna self w.
  - reflexivity.
  - apply IH, Hna.
  - contradiction.
  - destruct (host X e w) as [[x | err] w']; [| reflexivity].
    specialize (IH x (Hna x) self w').
    destruct (run_body host (k x) self w') as [r self']. exact IH.
Qed.

End BodyFacts.

(** ** The store *)

Section StoreFacts.

Context `{H : Host}.
Variable T : ImplType.
Variable jsi_ctor : CallInvoker -> TurboModule.
Variable host : Handler.

Lemma Delegate_install_body_no_assign (rt : Runtime) :
  no_assign (Delegate_install_body T rt).
Proof. simpl. intros; exact I. Qed.

Lemma create_body_no_assign (rt : Runtime) (propName : PropNameID) :
  no_assign (create_body rt propName).
Proof. simpl. intros; exact I. Qed.

Lemma getPropertyNames_body_no_assign (rt : Runtime) :
  no_assign (getPropertyNames_body rt).
Proof. simpl. intros; exact I. Qed.

Lemma Delegate_copy_id (d : Delegate) : Delegate_copy d = d.
Proof. destruct d; reflexivity. Qed.

Lemma delegate_alter_with_base (f : TurboModule -> TurboModule) (i j : Addr)
    (m : gmap Addr NativeSkiaModuleCxxSpec) :
  delegate_ <$> (alter (with_base f) i m !! j) = delegate_ <$> (m !! j).
Proof.
  destruct (decide (i = j)) as [-> | Hne].
  - rewrite lookup_alter_eq. destruct (m !! j); reflexivity.
  - rewrite lookup_alter_ne by exact Hne. reflexivity.
Qed.

Lemma delegate_insert_same (this j : Addr) (a a' : NativeSkiaModuleCxxSpec)
    (m : gmap Addr NativeSkiaModuleCxxSpec) :
  m !! this = Some a -> delegate_ a' = delegate_ a ->
  delegate_ <$> (<[this := a']> m !! j) = delegate_ <$> (m !! j).
Proof.
  intros Hm Hd. destruct (decide (this = j)) as [<- | Hne].
  - rewrite lookup_insert_eq, Hm. simpl. rewrite Hd. reflexivity.
  - rewrite lookup_insert_ne by exact Hne. reflexivity.
Qed.

(** What one operation does to the [delegate_] found at an address: only
    the constructors put one there; the three methods, whose bodies assign
    to no member, leave every [delegate_] as it was. *)
Lemma step_delegate (op : Op) (s : State) (j : Addr) :
  delegate_ <$> (objects (step T jsi_ctor host op s) !! j)
  = match op with
    | OpNew this jsInvoker =>
        if (this =? j)%N
        then Some (Delegate_ctor jsi_ctor (reinterpret_cast j) jsInvoker)
        else delegate_ <$> (objects s !! j)
    | OpCopy this other =>
        if (this =? j)%N
        then match objects s !! other with
             | Some a => Some (delegate_ a)
             | None => delegate_ <$> (objects s !! j)
             end
        else delegate_ <$> (objects s !! j)
    | _ => delegate_ <$> (objects s !! j)
    end.
Proof.
  destruct op as [this inv | this other | this rt p | this rt | this rt]; unfold step.
  - simpl. destruct (N.eqb_spec this j) as [-> | Hne].
    + rewrite lookup_insert_eq. reflexivity.
    + rewrite lookup_insert_ne by exact Hne. reflexivity.
  - destruct (objects s !! other) as [a |] eqn:Ho; simpl.
    + destruct (N.eqb_spec this j) as [-> | Hne].
      * rewrite lookup_insert_eq. simpl. rewrite Delegate_copy_id. reflexivity.
      * rewrite lookup_insert_ne by exact Hne. reflexivity.
    + destruct (this =? j)%N; reflexivity.
  - destruct (objects s !! this) as [a |] eqn:Ho; [| reflexivity].
    pose proof (no_assign_receiver host _ (create_body_no_assign rt p) a (host_world s)) as Hr.
    destruct (run_body host (create_body rt p) a (host_world s)) as [r a'].
    cbn [snd objects] in *. subst a'.
    apply (delegate_insert_same _ _ a); [exact Ho | reflexivity].
  - destruct (objects s !! this) as [a |] eqn:Ho; [| reflexivity].
    pose proof (no_assign_receiver host _ (getPropertyNames_body_no_assign rt) a (host_world s)) as Hr.
    destruct (run_body host (getPropertyNames_body rt) a (host_world s)) as [r a'].
    cbn [snd objects] in *. subst a'.
    apply (delegate_insert_same _ _ a); [exact Ho | reflexivity].
  - destruct (objects s !! this) as [a |] eqn:Ho; [| reflexivity].
    pose proof (no_assign_receiver host _ (Delegate_install_body_no_assign rt)
                  (delegate_ a) (host_world s)) as Hr.
    destruct (run_body host (Delegate_install_body T rt) (delegate_ a) (host_world s))
      as [r d'].
    cbn [snd objects] in *. subst d'.
    rewrite delegate_alter_with_base.
    apply (delegate_insert_same _ _ a); [exact Ho | reflexivity].
Qed.





End StoreFacts.

(** ** Builds *)

Section BuildFacts.

Variable bridging_diagnostics : MemberFn -> list Diagnostic.
Variable T : ImplType.

Lemma mismatch_diagnostics :
  length (sig_params (impl_install T)) <> 1 ->
  Delegate_install_diagnostics T bridging_diagnostics
  = StaticAssertFailed "Expected install(...) to have 1 parameters"
    :: bridging_diagnostics (AddrOf T "install").
Proof.
  intros Harity.
  unfold Delegate_install_diagnostics, getParameterCount; simpl.
  destruct (Nat.eqb_spec (length (sig_params (impl_install T))) 1) as [E | _].
  - contradiction.
  - reflexivity.
Qed.

Lemma build_with_install_fails (tu : list Entity) :
  length (sig_params (impl_install T)) <> 1 ->
  In Body_Delegate_install tu ->
  exists ds, build T bridging_diagnostics tu = BuildFailed ds /\
             In (StaticAssertFailed "Expected install(...) to have 1 parameters") ds.
Proof.
  intros Harity Hin.
  assert (Hd : In (StaticAssertFailed "Expected install(...) to have 1 parameters")
                  (flat_map (entity_diagnostics T bridging_diagnostics) tu)).
  { apply in_flat_map. exists Body_Delegate_install. split; [exact Hin |].
    simpl. rewrite (mismatch_diagnostics Harity). left; reflexivity. }
  unfold build.
  destruct (flat_map (entity_diagnostics T bridging_diagnostics) tu) as [| d ds].
  - destruct Hd.
  - eexists. split; [reflexivity | exact Hd].
Qed.

End BuildFacts.

(** ** The claims *)

(** C1: for every implementation type T and every runtime rt,
    [Delegate::install(rt)] is exactly one call of the host's
    [bridging::callFromJs<bool>] with [rt], [&T::install], the delegate's
    [jsInvoker_] and the stored [instance_], followed by returning what that
    call returned: under every host the trace is that single call, and the
    outcome and the world are the host's, unchanged. *)
Theorem C1_install_is_one_delegation `{H : Host}
    (T : ImplType) (self : Delegate) (rt : Runtime) :
  let e := CallFromJs rt (AddrOf T "install")
                      (jsInvoker_ (jsi_base self)) (instance_ self) in
  Delegate_install T self rt = Vis e Ret /\
  forall (host : Handler) (w : World),
    let r := run host (Delegate_install T self rt) w in
    trace r = [Called e] /\ (outcome r, world r) = host bool e w.
Proof.
  intros e. split; [reflexivity |].
  intros host w r. subst r.
  destruct (run_call host e w) as [Hout Htr].
  split; [exact Htr | exact Hout].
Qed.

(** C2: the interface [NativeSkiaModuleCxxSpecJSI] declares exactly one
    method; it is public, pure virtual, named [install], takes the one
    parameter [jsi::Runtime &] and returns [bool]. *)
Theorem C2_interface_declares_only_install :
  public_virtual_methods NativeSkiaModuleCxxSpecJSI_decl
    = [("install", PureVirtual, mkSig [TRuntimeRef] TBool)] /\
  public_methods NativeSkiaModuleCxxSpecJSI_decl
    = public_virtual_methods NativeSkiaModuleCxxSpecJSI_decl /\
  method_names (map snd (methods NativeSkiaModuleCxxSpecJSI_decl)) = ["install"] /\
  map (fun m => length (sig_params (snd m)))
      (public_methods NativeSkiaModuleCxxSpecJSI_decl) = [1].
Proof. repeat split. Qed.

(** C3, as the code has it: the assertion on the parameter count sits in
    the body of [Delegate::install].  For every implementation type T whose
    [install] does not have exactly one parameter, instantiating that body
    fails with the assertion's message first and builds no [install]; so
    does every build that instantiates it, and no program that calls
    [install] builds, whatever else it does. *)
Theorem C3_mismatch_fails_every_build_with_install `{H : Host}
    (bridging_diagnostics : MemberFn -> list Diagnostic) (T : ImplType)
    (Harity : length (sig_params (impl_install T)) <> 1) :
  let failed := StaticAssertFailed "Expected install(...) to have 1 parameters" in
  In failed (Delegate_install_diagnostics T bridging_diagnostics) /\
  (exists ds, instantiate_Delegate_install T bridging_diagnostics
              = BuildFailed (failed :: ds)) /\
  (forall body, instantiate_Delegate_install T bridging_diagnostics <> Built body) /\
  (forall tu : list Entity,
     In Body_Delegate_install tu ->
     exists ds, build T bridging_diagnostics tu = BuildFailed ds /\ In failed ds) /\
  (forall (jsi_ctor : CallInvoker -> TurboModule) (host : Handler)
          (vtable_instantiates_install : bool)
          (ops : list Op) (s : State) (this : Addr) (rt : Runtime),
     In (OpInstall this rt) ops ->
     exists ds,
       run_program T jsi_ctor bridging_diagnostics host
                   vtable_instantiates_install ops s = BuildFailed ds /\
       In failed ds).
Proof.
  intros failed.
  pose proof (mismatch_diagnostics bridging_diagnostics T Harity) as Hd.
  split; [rewrite Hd; left; reflexivity |].
  split; [unfold instantiate_Delegate_install; rewrite Hd; eexists; reflexivity |].
  split; [unfold instantiate_Delegate_install; rewrite Hd; discriminate |].
  split; [intros tu Hin; apply build_with_install_fails; assumption |].
  intros jsi_ctor host vt ops s this rt Hin.
  assert (Htu : In Body_Delegate_install (instantiated_by vt ops)).
  { right. apply in_flat_map. exists (OpInstall this rt).
    split; [exact Hin | left; reflexivity]. }
  destruct (build_with_install_fails bridging_diagnostics T _ Harity Htu)
    as (ds & Hb & Hds).
  exists ds. unfold run_program. rewrite Hb. split; [reflexivity | exact Hds].
Qed.

Lemma C3_witness :
  exists ds,
    run_program (H := Sample.host) Sample.TwoParamImpl Sample.jsi_ctor
                Sample.no_bridging_diagnostics Sample.answers_true false
                [OpNew (H := Sample.host) 64%N 5%N; OpInstall (H := Sample.host) 64%N 1%N]
                (mkState (H := Sample.host) ∅ (@nil string))
    = BuildFailed ds /\
    In (StaticAssertFailed "Expected install(...) to have 1 parameters") ds.
Proof.
  refine (proj2 (proj2 (proj2 (proj2
            (C3_mismatch_fails_every_build_with_install
               (H := Sample.host) Sample.no_bridging_diagnostics Sample.TwoParamImpl _))))
            Sample.jsi_ctor Sample.answers_true false
            [OpNew (H := Sample.host) 64%N 5%N; OpInstall (H := Sample.host) 64%N 1%N]
            (mkState (H := Sample.host) ∅ (@nil string)) 64%N 1%N _).
  - simpl. discriminate.
  - right; left; reflexivity.
Defined.

(** C3 as the spec words it fails: the class template is instantiated for
    a T whose [install] has two parameters, as long as the body of
    [Delegate::install] is not. *)
Lemma C3_counterexample :
  length (sig_params (impl_install Sample.TwoParamImpl)) <> 1 /\
  build Sample.TwoParamImpl Sample.no_bridging_diagnostics [TheClass]
  = Built [TheClass].
Proof. split; [simpl; discriminate | reflexivity]. Qed.

(** C4: [kModuleName] is the string "RNSkiaModule", and the constructor of
    [NativeSkiaModuleCxxSpec] initialises its TurboModule base with exactly
    that name (and the invoker it was given). *)
Theorem C4_module_name `{H : Host}
    (jsi_ctor : CallInvoker -> TurboModule) (this : Addr) (jsInvoker : CallInvoker) :
  kModuleName = "RNSkiaModule" /\
  base (NativeSkiaModuleCxxSpec_ctor jsi_ctor this jsInvoker)
  = TurboModule_ctor "RNSkiaModule" jsInvoker.
Proof. split; reflexivity. Qed.

(** C5, as the code has it: the check on the parameter count is made when
    the template is instantiated, not when [install] is invoked.  Whenever
    [Delegate::install] has been built for T, T's [install] has exactly one
    parameter, the built method is the body of lines 59-60, and invoking it
    makes the bridging call and nothing else: no check is left to run
    time. *)
Theorem C5_arity_check_is_compile_time `{H : Host}
    (bridging_diagnostics : MemberFn -> list Diagnostic) (T : ImplType)
    (body : Delegate -> Runtime -> Prog bool)
    (Hbuilt : instantiate_Delegate_install T bridging_diagnostics = Built body) :
  getParameterCount (AddrOf T "install") = 1 /\
  body = Delegate_install T /\
  forall (self : Delegate) (rt : Runtime) (host : Handler) (w : World),
    trace (run host (body self rt) w)
    = [Called (CallFromJs rt (AddrOf T "install")
                          (jsInvoker_ (jsi_base self)) (instance_ self))].
Proof.
  unfold instantiate_Delegate_install, Delegate_install_diagnostics in Hbuilt.
  destruct (Nat.eqb_spec (getParameterCount (AddrOf T "install")) 1) as [E | NE];
    simpl in Hbuilt.
  - destruct (bridging_diagnostics (AddrOf T "install")); [| discriminate].
    injection Hbuilt as <-.
    split; [exact E |]. split; [reflexivity |].
    intros self rt host w. apply run_call.
  - discriminate.
Qed.

Lemma C5_witness :
  getParameterCount (AddrOf Sample.GoodImpl "install") = 1 /\
  trace (run Sample.answers_true
             (Delegate_install (H := Sample.host) Sample.GoodImpl
                               (Delegate_ctor Sample.jsi_ctor 64%N 5%N) 1%N) [])
  = [Called (CallFromJs (H := Sample.host) 1%N
                        (AddrOf Sample.GoodImpl "install") 5%N 64%N)].
Proof.
  pose proof (C5_arity_check_is_compile_time
                (H := Sample.host) Sample.no_bridging_diagnostics Sample.GoodImpl
                (Delegate_install Sample.GoodImpl) eq_refl) as (Hn & _ & Hrun).
  split; [exact Hn |].
  exact (Hrun (Delegate_ctor Sample.jsi_ctor 64%N 5%N) 1%N Sample.answers_true []).
Defined.

(** C5 as the spec words it fails: for an [install] with two parameters
    the assertion has already fired at build time, so there is no method
    whose invocation could evaluate it. *)
Lemma C5_counterexample :
  instantiate_Delegate_install (H := Sample.host) Sample.TwoParamImpl
                               Sample.no_bridging_diagnostics
  = BuildFailed [StaticAssertFailed "Expected install(...) to have 1 parameters"] /\
  ~ (exists body,
       instantiate_Delegate_install (H := Sample.host) Sample.TwoParamImpl
                                    Sample.no_bridging_diagnostics
       = Built body).
Proof.
  split; [reflexivity |].
  intros [body Hb]. discriminate Hb.
Qed.

(** C6: for every runtime rt, [Delegate::install(rt)] ends in an exception
    if and only if its bridging call does, and then in that very exception;
    the body raises none of its own. *)
Theorem C6_install_raises_iff_bridging_raises `{H : Host}
    (T : ImplType) (self : Delegate) (rt : Runtime) (host : Handler) (w : World) :
  let e := CallFromJs rt (AddrOf T "install")
                      (jsInvoker_ (jsi_base self)) (instance_ self) in
  (raises (outcome (run host (Delegate_install T self rt) w))
   <-> raises (fst (host bool e w))) /\
  (forall err, outcome (run host (Delegate_install T self rt) w) = Raised err
               <-> fst (host bool e w) = Raised err).
Proof.
  intros e.
  destruct (run_call host e w) as [Hout _].
  assert (Heq : outcome (run host (Delegate_install T self rt) w) = fst (host bool e w)).
  { change (Delegate_install T self rt) with (call e). rewrite <- Hout. reflexivity. }
  rewrite Heq. split; [reflexivity | intros err; reflexivity].
Qed.

(** C7: the body of [Delegate::install] assigns to no member, and a call
    of [install] on the adapter at [this] leaves the state the header
    declares as it was: that adapter keeps its [delegate_] and the
    [instance_] in it, and so does every other adapter in the store.  (The
    module name, [kModuleName], is a constant of the class and no part of
    an object.)  What moves is the host's: the world, and what [T::install]
    does to the TurboModule base it runs on. *)
Theorem C7_install_assigns_no_member `{H : Host}
    (T : ImplType) (jsi_ctor : CallInvoker -> TurboModule) (host : Handler)
    (s : State) (this : Addr) (rt : Runtime) (a : NativeSkiaModuleCxxSpec)
    (Hobj : objects s !! this = Some a) :
  let s' := step T jsi_ctor host (OpInstall this rt) s in
  no_assign (Delegate_install_body T rt) /\
  snd (run_body host (Delegate_install_body T rt) (delegate_ a) (host_world s))
  = delegate_ a /\
  (exists a', objects s' !! this = Some a' /\
              delegate_ a' = delegate_ a /\
              instance_ (delegate_ a') = instance_ (delegate_ a)) /\
  (forall other b, objects s !! other = Some b ->
                   exists b', objects s' !! other = Some b' /\
                              delegate_ b' = delegate_ b) /\
  host_world s' = world (run host (Delegate_install T (delegate_ a) rt) (host_world s)).
Proof.
  intros s'.
  pose proof (Delegate_install_body_no_assign T rt) as Hna.
  assert (Hframe : forall other b, objects s !! other = Some b ->
                     exists b', objects s' !! other = Some b' /\
                                delegate_ b' = delegate_ b).
  { intros other b Hb.
    pose proof (step_delegate T jsi_ctor host (OpInstall this rt) s other) as Hd.
    cbv beta iota in Hd. fold s' in Hd. rewrite Hb in Hd.
    apply fmap_Some in Hd as (b' & Hb' & Hdb). exists b'. split; [exact Hb' | congruence]. }
  split; [exact Hna |].
  split; [apply no_assign_receiver; exact Hna |].
  split.
  { destruct (Hframe this a Hobj) as (a' & Ha' & Hd).
    exists a'. split; [exact Ha' |]. split; [exact Hd | rewrite Hd; reflexivity]. }
  split; [exact Hframe |].
  subst s'. unfold step. rewrite Hobj.
  pose proof (run_body_forget host (Delegate_install_body T rt) (delegate_ a) (host_world s))
    as Hrun.
  destruct (run_body host (Delegate_install_body T rt) (delegate_ a) (host_world s))
    as [r d'].
  cbn [fst host_world] in *. rewrite Hrun. reflexivity.
Qed.

Lemma C7_witness :
  let a := NativeSkiaModuleCxxSpec_ctor (H := Sample.host) Sample.jsi_ctor 64%N 5%N in
  let s := mkState (H := Sample.host) (<[64%N := a]> ∅) (@nil string) in
  let s' := step (H := Sample.host) Sample.GoodImpl Sample.jsi_ctor Sample.answers_true
                 (OpInstall (H := Sample.host) 64%N 1%N) s in
  (exists a', objects s' !! 64%N = Some a' /\
              delegate_ a' = delegate_ a /\
              instance_ (delegate_ a') = instance_ (delegate_ a)) /\
  host_world s' = ["callFromJs"].
Proof.
  intros a s s'.
  destruct (C7_install_assigns_no_member
              (H := Sample.host) Sample.GoodImpl Sample.jsi_ctor Sample.answers_true
              s 64%N 1%N a (lookup_insert_eq _ _ _)) as (_ & _ & Hthis & _ & Hw).
  split; [exact Hthis | exact Hw].
Defined.




(** C9: the adapter's public methods are [create] and [getPropertyNames],
    both overrides, and each is its delegate's method of the same name
    applied to the same arguments: same body, hence under every host the
    same outcome, world and trace. *)
Theorem C9_create_and_getPropertyNames_forward `{H : Host}
    (T : string) (self : NativeSkiaModuleCxxSpec) (rt : Runtime) (propName : PropNameID) :
  public_methods (NativeSkiaModuleCxxSpec_decl T)
    = [("create", Override, mkSig [TRuntimeRef; TPropNameIDConstRef] TValue);
       ("getPropertyNames", Override, mkSig [TRuntimeRef] TPropNameIDVector)] /\
  create self rt propName = Delegate_create (delegate_ self) rt propName /\
  getPropertyNames self rt = Delegate_getPropertyNames (delegate_ self) rt /\
  forall (host : Handler) (w : World),
    run host (create self rt propName) w
    = run host (Delegate_create (delegate_ self) rt propName) w /\
    run host (getPropertyNames self rt) w
    = run host (Delegate_getPropertyNames (delegate_ self) rt) w /\
    (outcome (run host (getPropertyNames self rt) w),
     world (run host (getPropertyNames self rt) w))
    = host _ (TurboModule_getPropertyNames (jsi_base (delegate_ self)) rt) w.
Proof.
  split; [reflexivity |]. split; [reflexivity |]. split; [reflexivity |].
  intros host w. split; [reflexivity |]. split; [reflexivity |].
  apply run_call.
Qed.

(** * Further properties of the header *)




